(** * Executor factory modules (python/tvm/relay/backend/executor_factory.py)

    A shallow embedding of the three classes of the module:
    [ExecutorFactoryModule] (the abstract interface),
    [AOTExecutorFactoryModule] and [GraphExecutorFactoryModule].

    Python values are a small universe of immutable trees; an instance of one
    of the three classes is its class together with its instance dictionary
    (a finite map from attribute names to values).  The body of [__init__]
    runs in a state-and-exception monad whose state is the instance being
    initialised together with the trace of the calls made into the native
    runtime (registry lookups, array conversions, packed-function calls). *)

From Stdlib Require Import ZArith List String Ascii.
From Stdlib Require Import Floats.PrimFloat.
From stdpp Require Import base option list strings gmap fin_maps.

Local Set Warnings "-register-all".
Local Open Scope string_scope.
Local Open Scope list_scope.

(** ** Python values, exceptions and results *)

Module Py.

(** [VObj mro fields] is an instance of a class of the runtime or of the
    user: [mro] is the method resolution order of its class, most specific
    class first, and [fields] its contents.  [VClassAttr cls name] is what
    attribute access yields for a name found in the namespace of class
    [cls] rather than in the instance (a bound method, for the classes of
    this file). *)
Inductive value : Type :=
| VNone
| VBool (b : bool)
| VInt (n : Z)
| VFloat (x : float)
| VStr (s : string)
| VList (xs : list value)
| VDict (items : list (value * value))
| VObj (mro : list string) (fields : list value)
| VClassAttr (cls name : string).

Inductive exn : Type :=
| AssertionError
| AttributeError (attr : string)
| NotImplementedError
| TypeError (msg : string)
| ValueError (msg : string)
| RuntimeFailure (what : string) (payload : value).

Inductive result (A : Type) : Type :=
| Ok (a : A)
| Raise (e : exn).
Arguments Ok {A} a.
Arguments Raise {A} e.

(** [type(v).__mro__], as class names. *)
Definition mro_of (v : value) : list string :=
  match v with
  | VNone => ["NoneType"; "object"]
  | VBool _ => ["bool"; "int"; "object"]
  | VInt _ => ["int"; "object"]
  | VFloat _ => ["float"; "object"]
  | VStr _ => ["str"; "object"]
  | VList _ => ["list"; "object"]
  | VDict _ => ["dict"; "object"]
  | VObj mro _ => mro
  | VClassAttr _ _ => ["method"; "object"]
  end.

Definition mem_string (c : string) (cs : list string) : bool :=
  existsb (String.eqb c) cs.

(** [isinstance(v, classes)] for a tuple of classes: some class of the tuple
    occurs in the method resolution order of [type(v)]. *)
Definition isinstance (v : value) (classes : list string) : bool :=
  existsb (fun c => mem_string c (mro_of v)) classes.

(** [d.items()]: the pairs of a dict in insertion order; no other value of
    the universe has the method. *)
Definition items (d : value) : result (list (value * value)) :=
  match d with
  | VDict kvs => Ok kvs
  | _ => Raise (AttributeError "items")
  end.

End Py.
Export Py.

(** ** The native runtime, as seen from this file *)

(** Calls that cross into the runtime, in the order they are made. *)
Inductive event : Type :=
| EvGetGlobalFunc (name : string)
| EvArray (v : value)
| EvCall (name : string) (args : list value).

(** A packed function of the registry, with the name it is registered
    under. *)
Record packed_func : Type := PackedFunc {
  pf_name : string;
  pf_call : list value -> result value
}.

(** The collaborators of the module.  [nd_array] is [ndarray.array];
    [module_getitem m k] is [m.__getitem__(k)] and [module_export_library]
    is [m.export_library(...)] for a runtime module [m]; each one returns
    or raises. *)
Record world : Type := World {
  registry : gmap string (list value -> result value);
  nd_array : value -> result value;
  module_getitem : value -> value -> result value;
  module_export_library :
    value -> list value -> list (string * value) -> result value
}.

(** Modelled from the spec: [string_types] of [tvm._ffi.base], the tuple of
    classes that count as "string-typed"; the file that defines it is not
    part of the sources at hand. *)
Definition string_types : list string := ["str"].

(** Modelled from the spec: the class [tir.PrimFunc], the "compiled-function
    descriptor"; only its name matters here. *)
Definition PrimFunc : string := "tvm.tir.PrimFunc".

Definition create_name : string := "tvm.graph_executor_factory.create".

(** ** The monad of [__init__] *)

Record state : Type := State {
  self_dict : gmap string value;
  trace : list event
}.

Definition M (A : Type) : Type := state -> result A * state.

Definition ret {A} (a : A) : M A := fun st => (Ok a, st).

Definition bind {A B} (c : M A) (k : A -> M B) : M B :=
  fun st =>
    match c st with
    | (Ok a, st') => k a st'
    | (Raise e, st') => (Raise e, st')
    end.

Declare Scope py_scope.
Delimit Scope py_scope with py.
Notation "x <- c ;; k" := (bind c (fun x => k))
  (at level 100, c at next level, right associativity) : py_scope.
Notation "c ;;; k" := (bind c (fun _ => k))
  (at level 100, right associativity) : py_scope.
Local Open Scope py_scope.

Definition lift {A} (r : result A) : M A := fun st => (r, st).

Definition emit (e : event) : M unit :=
  fun st => (Ok tt, {| self_dict := self_dict st; trace := trace st ++ [e] |}).

(** [assert b], with assertions enabled as they are by default *)
Definition assert_ (b : bool) : M unit :=
  if b then ret tt else lift (Raise AssertionError).

(** [self.name = v] *)
Definition setattr (name : string) (v : value) : M unit :=
  fun st =>
    (Ok tt, {| self_dict := <[name := v]> (self_dict st); trace := trace st |}).

Section Runtime.
Variable W : world.

(** Modelled from the spec: [get_global_func(name)] of [tvm._ffi.registry]
    resolves a name in the global registry and fails when the name is not
    registered. *)
Definition get_global_func (name : string) : M packed_func :=
  emit (EvGetGlobalFunc name) ;;;
  match registry W !! name with
  | Some f => ret (PackedFunc name f)
  | None => lift (Raise (ValueError ("Cannot find global function " ++ name)))
  end.

(** [ndarray.array(v)] *)
Definition ndarray_array (v : value) : M value :=
  emit (EvArray v) ;;; lift (nd_array W v).

(** a call of the packed function [f] on the positional arguments [args] *)
Definition call_packed (f : packed_func) (args : list value) : M value :=
  emit (EvCall (pf_name f) args) ;;; lift (pf_call f args).

(** The loop shared by both constructors:
<<
    for k, v in params.items():
        args.append(k)
        args.append(ndarray.array(v))
>>
    [args] is the list built so far. *)
Fixpoint params_loop (kvs : list (value * value)) (args : list value)
  : M (list value) :=
  match kvs with
  | [] => ret args
  | (k, v) :: rest =>
      let args1 := args ++ [k] in
      a <- ndarray_array v ;;
      let args2 := args1 ++ [a] in
      params_loop rest args2
  end.

Definition flatten_params (params : value) : M (list value) :=
  kvs <- lift (items params) ;;
  params_loop kvs [].

End Runtime.

(** ** Classes and instances *)

Inductive pyclass : Type :=
| ExecutorFactoryModule
| AOTExecutorFactoryModule
| GraphExecutorFactoryModule.

Definition class_name (c : pyclass) : string :=
  match c with
  | ExecutorFactoryModule => "ExecutorFactoryModule"
  | AOTExecutorFactoryModule => "AOTExecutorFactoryModule"
  | GraphExecutorFactoryModule => "GraphExecutorFactoryModule"
  end.

(** The names bound in each class body. *)
Definition class_namespace (c : pyclass) : list string :=
  match c with
  | ExecutorFactoryModule =>
      ["get_internal_repr"; "get_params"; "get_lib"]
  | AOTExecutorFactoryModule =>
      ["__init__"; "get_params"; "get_internal_repr"; "get_lib"]
  | GraphExecutorFactoryModule =>
      ["__init__"; "export_library"; "save_executor_config"; "get_params";
       "get_graph_json"; "get_internal_repr"; "get_lib"; "__getitem__"]
  end.

(** What every class inherits from [object] or gets from the class
    machinery. *)
Definition object_namespace : list string :=
  ["__class__"; "__delattr__"; "__dict__"; "__dir__"; "__doc__"; "__eq__";
   "__format__"; "__ge__"; "__getattribute__"; "__gt__"; "__hash__";
   "__init__"; "__init_subclass__"; "__le__"; "__lt__"; "__module__";
   "__ne__"; "__new__"; "__reduce__"; "__reduce_ex__"; "__repr__";
   "__setattr__"; "__sizeof__"; "__str__"; "__subclasshook__";
   "__weakref__"].

Definition class_mro (c : pyclass) : list pyclass :=
  match c with
  | ExecutorFactoryModule => [ExecutorFactoryModule]
  | AOTExecutorFactoryModule =>
      [AOTExecutorFactoryModule; ExecutorFactoryModule]
  | GraphExecutorFactoryModule =>
      [GraphExecutorFactoryModule; ExecutorFactoryModule]
  end.

Record instance : Type := Instance {
  cls : pyclass;
  dict : gmap string value
}.

(** [o.name]: the instance dictionary first, then the classes of the method
    resolution order, then [object]; none of the classes defines
    [__getattr__], so a name found nowhere is an [AttributeError]. *)
Definition getattr (o : instance) (name : string) : result value :=
  match dict o !! name with
  | Some v => Ok v
  | None =>
      match List.find (fun c => mem_string name (class_namespace c))
                      (class_mro (cls o)) with
      | Some c => Ok (VClassAttr (class_name c) name)
      | None =>
          if mem_string name object_namespace
          then Ok (VClassAttr "object" name)
          else Raise (AttributeError name)
      end
  end.

(** ** Constructors *)

Section Factory.
Variable W : world.

(** [AOTExecutorFactoryModule.__init__] *)
Definition AOT_init
  (ir_mod target runner_function libmod libmod_name params : value) : M unit :=
  assert_ (isinstance runner_function [PrimFunc]) ;;;
  args <- flatten_params W params ;;
  setattr "ir_mod" ir_mod ;;;
  setattr "target" target ;;;
  setattr "runner_func" runner_function ;;;
  setattr "lib" libmod ;;;
  setattr "libmod_name" libmod_name ;;;
  setattr "params" params ;;;
  setattr "iter_cnt" (VInt 0).

(** [GraphExecutorFactoryModule.__init__] *)
Definition Graph_init
  (ir_mod target graph_str libmod libmod_name params : value) : M unit :=
  assert_ (isinstance graph_str string_types) ;;;
  fcreate <- get_global_func W create_name ;;
  args <- flatten_params W params ;;
  setattr "ir_mod" ir_mod ;;;
  setattr "target" target ;;;
  module <- call_packed fcreate ([graph_str; libmod; libmod_name] ++ args) ;;
  setattr "module" module ;;;
  setattr "graph" graph_str ;;;
  setattr "lib" libmod ;;;
  setattr "libmod_name" libmod_name ;;;
  setattr "params" params ;;;
  setattr "iter_cnt" (VInt 0).

(** A call [C(...)] of a class: a fresh instance with an empty dictionary is
    handed to [__init__]; the caller gets the instance when [__init__]
    returns, and only the exception when it raises.  The second component is
    the trace of the calls made into the runtime. *)
Definition new_instance (c : pyclass) (init : M unit)
  : result instance * list event :=
  match init {| self_dict := ∅; trace := [] |} with
  | (Ok _, st) => (Ok (Instance c (self_dict st)), trace st)
  | (Raise e, st) => (Raise e, trace st)
  end.

(** The third argument is [runner_function] for the ahead-of-time class and
    [graph_str] for the graph class.  The abstract class has no [__init__]
    of its own and takes no arguments. *)
Definition construct (c : pyclass)
  (ir_mod target repr libmod libmod_name params : value)
  : result instance * list event :=
  match c with
  | ExecutorFactoryModule =>
      (Raise (TypeError "ExecutorFactoryModule() takes no arguments"), [])
  | AOTExecutorFactoryModule =>
      new_instance c (AOT_init ir_mod target repr libmod libmod_name params)
  | GraphExecutorFactoryModule =>
      new_instance c (Graph_init ir_mod target repr libmod libmod_name params)
  end.

(** ** Methods *)

Definition get_params (o : instance) : result value :=
  match cls o with
  | ExecutorFactoryModule => Raise NotImplementedError
  | AOTExecutorFactoryModule => getattr o "params"
  | GraphExecutorFactoryModule => getattr o "params"
  end.

Definition get_internal_repr (o : instance) : result value :=
  match cls o with
  | ExecutorFactoryModule => Raise NotImplementedError
  | AOTExecutorFactoryModule => getattr o "runner_func"
  | GraphExecutorFactoryModule => getattr o "graph"
  end.

Definition get_lib (o : instance) : result value :=
  match cls o with
  | ExecutorFactoryModule => Raise NotImplementedError
  | AOTExecutorFactoryModule => getattr o "lib"
  | GraphExecutorFactoryModule => getattr o "lib"
  end.

(** The remaining methods exist in the graph class only. *)
Definition save_executor_config (o : instance) : result value :=
  match cls o with
  | GraphExecutorFactoryModule => getattr o "graph"
  | _ => Raise (AttributeError "save_executor_config")
  end.

Definition get_graph_json (o : instance) : result value :=
  match cls o with
  | GraphExecutorFactoryModule => getattr o "internal_repr"
  | _ => Raise (AttributeError "get_graph_json")
  end.

Definition getitem (o : instance) (item : value) : result value :=
  match cls o with
  | GraphExecutorFactoryModule =>
      match getattr o "module" with
      | Ok m => module_getitem W m item
      | Raise e => Raise e
      end
  | _ => Raise (TypeError "object is not subscriptable")
  end.

Definition export_library (o : instance)
  (file_name fcompile addons : value) (kwargs : list (string * value))
  : result value :=
  match cls o with
  | GraphExecutorFactoryModule =>
      match getattr o "module" with
      | Ok m => module_export_library W m [file_name; fcompile; addons] kwargs
      | Raise e => Raise e
      end
  | _ => Raise (AttributeError "export_library")
  end.

End Factory.

(** ** Vocabulary of the specification *)

(** The "alternating flattened sequence" name1, value1, name2, value2, ...
    of a list of (name, value) pairs, written after the specification. *)
Fixpoint alternating (kas : list (value * value)) : list value :=
  match kas with
  | [] => []
  | (k, a) :: rest => k :: a :: alternating rest
  end.

(** The argument lists of the calls of the packed function [name], in
    order. *)
Definition calls_to (name : string) (tr : list event) : list (list value) :=
  omap (fun e =>
          match e with
          | EvCall n args => if String.eqb n name then Some args else None
          | _ => None
          end) tr.

(** Events that go through the function registry: a lookup, or a call of a
    function obtained from it. *)
Definition uses_registry (e : event) : bool :=
  match e with
  | EvGetGlobalFunc _ | EvCall _ _ => true
  | EvArray _ => false
  end.

(** The attributes that [__init__] assigns, in the order of the source. *)
Definition assigned_attrs (c : pyclass) : list string :=
  match c with
  | ExecutorFactoryModule => []
  | AOTExecutorFactoryModule =>
      ["ir_mod"; "target"; "runner_func"; "lib"; "libmod_name"; "params";
       "iter_cnt"]
  | GraphExecutorFactoryModule =>
      ["ir_mod"; "target"; "module"; "graph"; "lib"; "libmod_name"; "params";
       "iter_cnt"]
  end.

(** An instance of class [c] on which [__init__] ran to its end: every
    attribute of [assigned_attrs] is set, and nothing else is. *)
Definition fully_constructed (c : pyclass) (o : instance) : Prop :=
  cls o = c /\ dom (dict o) = list_to_set (assigned_attrs c).

(** [occurs v x]: the value [v] is [x] or lies somewhere inside [x]. *)
Inductive occurs (v : value) : value -> Prop :=
| occurs_here : occurs v v
| occurs_list (xs : list value) (x : value) :
    x ∈ xs -> occurs v x -> occurs v (VList xs)
| occurs_dict_key (kvs : list (value * value)) (k x : value) :
    (k, x) ∈ kvs -> occurs v k -> occurs v (VDict kvs)
| occurs_dict_value (kvs : list (value * value)) (k x : value) :
    (k, x) ∈ kvs -> occurs v x -> occurs v (VDict kvs)
| occurs_field (mro : list string) (fields : list value) (x : value) :
    x ∈ fields -> occurs v x -> occurs v (VObj mro fields).

(** The instance keeps the value [v]: it can be reached from one of its
    attributes. *)
Definition retains (o : instance) (v : value) : Prop :=
  exists (a : string) (x : value), dict o !! a = Some x /\ occurs v x.

(** The positional arguments of the create function: the graph description,
    the library and the module name, then the flattened parameters. *)
Definition create_arguments (graph_str libmod libmod_name : value)
  (kas : list (value * value)) : list value :=
  [graph_str; libmod; libmod_name] ++ alternating kas.

(** [ka] is the pair [kv] of the parameter mapping with its value converted
    to the array representation of the runtime [W]. *)
Definition converted (W : world) (kv ka : value * value) : Prop :=
  ka.1 = kv.1 /\ nd_array W kv.2 = Ok ka.2.

(** The instance dictionaries that the two [__init__] bodies build, written
    as the assignments of the source from the last one to the first. *)
Definition AOT_dict
  (ir_mod target runner_function libmod libmod_name params : value)
  : gmap string value :=
  <["iter_cnt" := VInt 0]> (<["params" := params]>
  (<["libmod_name" := libmod_name]> (<["lib" := libmod]>
  (<["runner_func" := runner_function]>
  (<["target" := target]> (<["ir_mod" := ir_mod]> ∅)))))).

Definition Graph_dict
  (ir_mod target module graph_str libmod libmod_name params : value)
  : gmap string value :=
  <["iter_cnt" := VInt 0]> (<["params" := params]>
  (<["libmod_name" := libmod_name]> (<["lib" := libmod]>
  (<["graph" := graph_str]> (<["module" := module]>
  (<["target" := target]> (<["ir_mod" := ir_mod]> ∅))))))).

(** ** A concrete runtime and the scenario of the specification *)

Module Scenario.

Definition dquote : string := String (ascii_of_nat 34) EmptyString.

(** The graph description of the scenario, an object whose only member
    [nodes] is the empty array. *)
Definition graph_str : value :=
  VStr ("{" ++ dquote ++ "nodes" ++ dquote ++ ":[]}").

Definition ir_mod : value := VObj ["tvm.ir.IRModule"; "object"] [].
Definition target : value := VObj ["tvm.target.Target"; "object"] [VStr "llvm"].
Definition lib : value := VObj ["tvm.runtime.Module"; "object"] [VStr "stub"].
Definition lib_name : value := VStr "lib0".
Definition weights : value := VList [VFloat 1.0; VFloat 2.0].
Definition params : value := VDict [(VStr "w", weights)].
Definition runner : value :=
  VObj [PrimFunc; "tvm.ir.BaseFunc"; "object"] [VStr "tvmgen_run"].

(** The array that the runtime builds from [v]. *)
Definition array_of (v : value) : value :=
  VObj ["tvm.runtime.NDArray"; "object"] [v].

(** The module that the create function builds from its arguments. *)
Definition module_of (args : list value) : value :=
  VObj ["tvm.runtime.Module"; "object"] args.

Definition entry_point (m : value) : value :=
  VObj ["tvm.runtime.PackedFunc"; "object"] [m; VStr "default"].

(** A runtime in which the create function is registered, every value
    converts to an array, and a module knows the one entry point
    [default]. *)
Definition runtime : world :=
  {| registry := {[ create_name := fun args => Ok (module_of args) ]};
     nd_array := fun v => Ok (array_of v);
     module_getitem := fun m k =>
       match k with
       | VStr s =>
           if String.eqb s "default" then Ok (entry_point m)
           else Raise (AttributeError s)
       | _ => Raise (ValueError "Can only take string as function name")
       end;
     module_export_library := fun _ _ _ => Ok VNone |}.

(** A runtime that registers nothing. *)
Definition bare_runtime : world :=
  {| registry := ∅;
     nd_array := fun v => Ok (array_of v);
     module_getitem := fun _ _ => Raise (ValueError "no module");
     module_export_library := fun _ _ _ => Ok VNone |}.

(** A runtime whose create function rejects its arguments. *)
Definition rejecting_runtime : world :=
  {| registry :=
       {[ create_name := fun _ => Raise (RuntimeFailure "TVMError" VNone) ]};
     nd_array := fun v => Ok (array_of v);
     module_getitem := fun _ _ => Raise (ValueError "no module");
     module_export_library := fun _ _ _ => Ok VNone |}.

(** The arguments of the create function in the scenario. *)
Definition create_args : list value :=
  [graph_str; lib; lib_name; VStr "w"; array_of weights].

(** The two factories of the scenario, attribute by attribute. *)
Definition graph_factory : instance :=
  Instance GraphExecutorFactoryModule
    (<["iter_cnt" := VInt 0]> (<["params" := params]>
     (<["libmod_name" := lib_name]> (<["lib" := lib]>
     (<["graph" := graph_str]> (<["module" := module_of create_args]>
     (<["target" := target]> (<["ir_mod" := ir_mod]> ∅)))))))).

Definition aot_factory : instance :=
  Instance AOTExecutorFactoryModule
    (<["iter_cnt" := VInt 0]> (<["params" := params]>
     (<["libmod_name" := lib_name]> (<["lib" := lib]>
     (<["runner_func" := runner]>
     (<["target" := target]> (<["ir_mod" := ir_mod]> ∅))))))).

End Scenario.

(** ** A runtime that refuses some values *)

Module Cases.

(** The create function is registered, but only lists convert to arrays. *)
Definition picky_runtime : world :=
  {| registry := {[ create_name := fun args => Ok (Scenario.module_of args) ]};
     nd_array := fun v =>
       match v with
       | VList _ => Ok (Scenario.array_of v)
       | _ => Raise (TypeError "cannot convert to an array")
       end;
     module_getitem := fun _ _ => Raise (ValueError "no module");
     module_export_library := fun m args _ => Ok (VList (m :: args)) |}.

Definition bias : value := VList [VFloat 0.5].

(** Three parameters, the second of which does not convert. *)
Definition three_params : list (value * value) :=
  [(VStr "w", Scenario.weights); (VStr "b", VNone); (VStr "c", bias)].

(** Two parameters that convert. *)
Definition two_params : list (value * value) :=
  [(VStr "w", Scenario.weights); (VStr "c", bias)].

Definition two_arrays : list (value * value) :=
  [(VStr "w", Scenario.array_of Scenario.weights);
   (VStr "c", Scenario.array_of bias)].

End Cases.

Example scenario_graph :
  construct Scenario.runtime GraphExecutorFactoryModule
    Scenario.ir_mod Scenario.target Scenario.graph_str Scenario.lib
    Scenario.lib_name Scenario.params
  = (Ok Scenario.graph_factory,
     [EvGetGlobalFunc create_name; EvArray Scenario.weights;
      EvCall create_name Scenario.create_args]).
Proof. reflexivity. Qed.

Example scenario_aot :
  construct Scenario.runtime AOTExecutorFactoryModule
    Scenario.ir_mod Scenario.target Scenario.runner Scenario.lib
    Scenario.lib_name Scenario.params
  = (Ok Scenario.aot_factory, [EvArray Scenario.weights]).
Proof. reflexivity. Qed.

(** ** The parameter loop *)

Section Loop.
Variable W : world.

Lemma bind_run {A B} (c : M A) (k : A -> M B) (st : state) :
  bind c k st =
  match c st with
  | (Ok a, st') => k a st'
  | (Raise e, st') => (Raise e, st')
  end.
Proof. reflexivity. Qed.

Lemma ndarray_array_run (v : value) (st : state) :
  ndarray_array W v st =
  (nd_array W v, State (self_dict st) (trace st ++ [EvArray v])).
Proof. unfold ndarray_array, bind, emit, lift. reflexivity. Qed.

(** When every value converts, the loop appends the alternating sequence of
    names and converted values to [args] and records one conversion per
    value. *)
Lemma params_loop_ok (kvs kas : list (value * value)) :
  Forall2 (converted W) kvs kas ->
  forall (args : list value) (st : state),
    params_loop W kvs args st =
    (Ok (args ++ alternating kas),
     State (self_dict st) (trace st ++ map EvArray kvs.*2)).
Proof.
  induction 1 as [| [k v] [k' a] kvs kas [Hk Hv] _ IH]; intros args st.
  - simpl. rewrite !app_nil_r. destruct st; reflexivity.
  - simpl in Hk, Hv. subst k'.
    cbn [params_loop]. rewrite bind_run, ndarray_array_run, Hv.
    rewrite IH. cbn [self_dict trace alternating fmap list_fmap map snd].
    rewrite <- !app_assoc. reflexivity.
Qed.

(** Whatever the loop does, it leaves the instance alone and records array
    conversions only; when it returns, every value was converted. *)
Lemma params_loop_inv (kvs : list (value * value)) :
  forall (args : list value) (st st' : state) (r : result (list value)),
    params_loop W kvs args st = (r, st') ->
    self_dict st' = self_dict st /\
    exists vs : list value,
      trace st' = trace st ++ map EvArray vs /\
      forall flat : list value,
        r = Ok flat ->
        vs = kvs.*2 /\
        exists kas, Forall2 (converted W) kvs kas /\
                    flat = args ++ alternating kas.
Proof.
  induction kvs as [| [k v] kvs IH]; intros args st st' r Hrun.
  - inversion Hrun; subst. split; [reflexivity |].
    exists []. split; [simpl; by rewrite app_nil_r |].
    intros flat [= <-]. split; [reflexivity |].
    exists []. split; [constructor | simpl; by rewrite app_nil_r].
  - cbn [params_loop] in Hrun.
    rewrite bind_run, ndarray_array_run in Hrun.
    destruct (nd_array W v) as [a | e] eqn:Hv.
    + apply IH in Hrun as (Hd & vs & Htr & Hok). cbn [self_dict trace] in *.
      split; [exact Hd |].
      exists (v :: vs). split; [simpl; by rewrite Htr, <- app_assoc |].
      intros flat Hflat. destruct (Hok flat Hflat) as (-> & kas & Hall & ->).
      split; [reflexivity |].
      exists ((k, a) :: kas). split.
      * constructor; [split; [reflexivity | exact Hv] | exact Hall].
      * simpl. by rewrite <- !app_assoc.
    + inversion Hrun; subst. split; [reflexivity |].
      exists [v]. split; [reflexivity |]. intros flat [=].
Qed.

End Loop.

(** ** What the constructors do *)

Section Constructors.
Variable W : world.
Implicit Types ir_mod target libmod libmod_name params : value.

Lemma flatten_params_inv params (st st' : state) (r : result (list value)) :
  flatten_params W params st = (r, st') ->
  self_dict st' = self_dict st /\
  exists vs : list value,
    trace st' = trace st ++ map EvArray vs /\
    forall flat : list value,
      r = Ok flat ->
      exists kvs kas,
        params = VDict kvs /\ vs = kvs.*2 /\
        Forall2 (converted W) kvs kas /\ flat = alternating kas.
Proof.
  unfold flatten_params. rewrite bind_run. unfold lift at 1.
  destruct params as [| | | | | | kvs | |]; cbn [items];
    try (intros [= <- <-]; split; [reflexivity |]; exists [];
         split; [simpl; by rewrite app_nil_r | intros ? [=]]).
  intros Hrun. apply params_loop_inv in Hrun as (Hd & vs & Htr & Hok).
  split; [exact Hd |]. exists vs. split; [exact Htr |].
  intros flat Hflat. destruct (Hok flat Hflat) as (-> & kas & Hall & ->).
  by exists kvs, kas.
Qed.

(** A successful ahead-of-time construction, read backwards. *)
Lemma AOT_construct_inv ir_mod target runner libmod libmod_name params
    (o : instance) (tr : list event) :
  construct W AOTExecutorFactoryModule
    ir_mod target runner libmod libmod_name params = (Ok o, tr) ->
  isinstance runner [PrimFunc] = true /\
  exists kvs kas,
    params = VDict kvs /\ Forall2 (converted W) kvs kas /\
    tr = map EvArray kvs.*2 /\
    o = Instance AOTExecutorFactoryModule
          (AOT_dict ir_mod target runner libmod libmod_name params).
Proof.
  unfold construct, new_instance, AOT_init. rewrite bind_run.
  destruct (isinstance runner [PrimFunc]); cbn [assert_ ret lift];
    [| intros [=]].
  rewrite bind_run.
  destruct (flatten_params W params _) as [[flat | e] st'] eqn:Hflat;
    [| intros [=]].
  apply flatten_params_inv in Hflat as (Hd & vs & Htr & Hok).
  destruct (Hok flat eq_refl) as (kvs & kas & -> & -> & Hall & ->).
  destruct st' as [d t]. cbn in Hd, Htr. subst d t.
  cbn. intros [= <- <-]. split; [reflexivity |].
  by exists kvs, kas.
Qed.

(** A graph construction whose checks pass, read forwards: the outcome is
    the outcome of the one call of the create function. *)
Lemma Graph_construct_run ir_mod target graph_str libmod libmod_name
    (f : list value -> result value) (kvs kas : list (value * value)) :
  isinstance graph_str string_types = true ->
  registry W !! create_name = Some f ->
  Forall2 (converted W) kvs kas ->
  let args := [graph_str; libmod; libmod_name] ++ alternating kas in
  construct W GraphExecutorFactoryModule
    ir_mod target graph_str libmod libmod_name (VDict kvs)
  = (match f args with
     | Ok m => Ok (Instance GraphExecutorFactoryModule
                     (Graph_dict ir_mod target m graph_str libmod libmod_name
                        (VDict kvs)))
     | Raise e => Raise e
     end,
     EvGetGlobalFunc create_name :: map EvArray kvs.*2
       ++ [EvCall create_name args]).
Proof.
  intros Hstr Hreg Hall args.
  unfold construct, new_instance, Graph_init. rewrite bind_run, Hstr.
  cbn [assert_ ret]. rewrite bind_run. unfold get_global_func at 1.
  rewrite bind_run. cbn [emit]. rewrite Hreg. cbn [ret].
  rewrite bind_run. unfold flatten_params. rewrite bind_run.
  cbn [lift items]. rewrite (params_loop_ok W kvs kas Hall).
  subst args. cbn [self_dict trace app].
  do 3 (rewrite bind_run; cbn [setattr]).
  unfold call_packed. rewrite bind_run. cbn [emit pf_name pf_call lift].
  destruct (f _) as [m | e]; reflexivity.
Qed.

(** A successful graph construction, read backwards. *)
Lemma Graph_construct_inv ir_mod target graph_str libmod libmod_name params
    (o : instance) (tr : list event) :
  construct W GraphExecutorFactoryModule
    ir_mod target graph_str libmod libmod_name params = (Ok o, tr) ->
  isinstance graph_str string_types = true /\
  exists f kvs kas m,
    registry W !! create_name = Some f /\
    params = VDict kvs /\ Forall2 (converted W) kvs kas /\
    f ([graph_str; libmod; libmod_name] ++ alternating kas) = Ok m /\
    tr = EvGetGlobalFunc create_name :: map EvArray kvs.*2
           ++ [EvCall create_name
                 ([graph_str; libmod; libmod_name] ++ alternating kas)] /\
    o = Instance GraphExecutorFactoryModule
          (Graph_dict ir_mod target m graph_str libmod libmod_name params).
Proof.
  intros Hrun.
  destruct (isinstance graph_str string_types) eqn:Hstr;
    [| by unfold construct, new_instance, Graph_init in Hrun;
          rewrite bind_run, Hstr in Hrun].
  destruct (registry W !! create_name) as [f |] eqn:Hreg;
    [| by unfold construct, new_instance, Graph_init in Hrun;
          rewrite bind_run, Hstr in Hrun; cbn [assert_ ret] in Hrun;
          rewrite bind_run in Hrun; unfold get_global_func in Hrun;
          rewrite bind_run in Hrun; cbn [emit] in Hrun;
          rewrite Hreg in Hrun].
  split; [reflexivity |].
  assert (exists kvs kas, params = VDict kvs /\ Forall2 (converted W) kvs kas)
    as (kvs & kas & -> & Hall).
  { unfold construct, new_instance, Graph_init in Hrun.
    rewrite bind_run, Hstr in Hrun. cbn [assert_ ret] in Hrun.
    rewrite bind_run in Hrun. unfold get_global_func in Hrun.
    rewrite bind_run in Hrun. cbn [emit] in Hrun. rewrite Hreg in Hrun.
    cbn [ret] in Hrun. rewrite bind_run in Hrun.
    destruct (flatten_params W params _) as [[flat | e] st'] eqn:Hflat;
      [| discriminate].
    apply flatten_params_inv in Hflat as (_ & vs & _ & Hok).
    destruct (Hok flat eq_refl) as (kvs & kas & -> & _ & Hall & _).
    by exists kvs, kas. }
  rewrite (Graph_construct_run _ _ _ _ _ f kvs kas Hstr Hreg Hall) in Hrun.
  destruct (f _) as [m |] eqn:Hf; [| discriminate].
  injection Hrun as <- <-. by exists f, kvs, kas, m.
Qed.

End Constructors.

(** ** Reading attributes of a constructed factory *)

Section Attributes.
Implicit Types ir_mod target libmod libmod_name params : value.

Ltac read_attribute :=
  unfold getattr, AOT_dict, Graph_dict; cbn [dict]; by simplify_map_eq.

Lemma AOT_getattr_params c ir_mod target runner libmod libmod_name params :
  getattr (Instance c
             (AOT_dict ir_mod target runner libmod libmod_name params))
    "params" = Ok params.
Proof. read_attribute. Qed.

Lemma Graph_getattr_params c ir_mod target m graph_str libmod libmod_name
    params :
  getattr (Instance c
             (Graph_dict ir_mod target m graph_str libmod libmod_name params))
    "params" = Ok params.
Proof. read_attribute. Qed.

Lemma Graph_getattr_graph c ir_mod target m graph_str libmod libmod_name
    params :
  getattr (Instance c
             (Graph_dict ir_mod target m graph_str libmod libmod_name params))
    "graph" = Ok graph_str.
Proof. read_attribute. Qed.

Lemma Graph_getattr_module c ir_mod target m graph_str libmod libmod_name
    params :
  getattr (Instance c
             (Graph_dict ir_mod target m graph_str libmod libmod_name params))
    "module" = Ok m.
Proof. read_attribute. Qed.

(** No graph factory has an attribute [internal_repr]: [__init__] does not
    assign it and no class of the hierarchy binds the name. *)
Lemma Graph_getattr_internal_repr ir_mod target m graph_str libmod
    libmod_name params :
  getattr (Instance GraphExecutorFactoryModule
             (Graph_dict ir_mod target m graph_str libmod libmod_name params))
    "internal_repr" = Raise (AttributeError "internal_repr").
Proof. read_attribute. Qed.

Lemma AOT_dict_dom ir_mod target runner libmod libmod_name params :
  dom (AOT_dict ir_mod target runner libmod libmod_name params)
  = list_to_set (assigned_attrs AOTExecutorFactoryModule).
Proof.
  unfold AOT_dict. rewrite !dom_insert_L, dom_empty_L.
  cbn [assigned_attrs list_to_set]. set_solver.
Qed.

Lemma Graph_dict_dom ir_mod target m graph_str libmod libmod_name params :
  dom (Graph_dict ir_mod target m graph_str libmod libmod_name params)
  = list_to_set (assigned_attrs GraphExecutorFactoryModule).
Proof.
  unfold Graph_dict. rewrite !dom_insert_L, dom_empty_L.
  cbn [assigned_attrs list_to_set]. set_solver.
Qed.

End Attributes.

Lemma calls_to_arrays (name : string) (vs : list value) :
  calls_to name (map EvArray vs) = [].
Proof. induction vs as [| v vs IH]; [reflexivity | exact IH]. Qed.

Lemma calls_to_graph_trace (vs args : list value) :
  calls_to create_name
    (EvGetGlobalFunc create_name :: map EvArray vs
       ++ [EvCall create_name args]) = [args].
Proof.
  unfold calls_to. cbn [omap list_omap]. fold (calls_to create_name).
  rewrite omap_app. fold (calls_to create_name (map EvArray vs)).
  rewrite calls_to_arrays. reflexivity.
Qed.

Lemma arrays_use_no_registry (vs : list value) :
  filter (fun e => uses_registry e = true) (map EvArray vs) = [].
Proof.
  induction vs as [| v vs IH]; [reflexivity |].
  cbn [map]. rewrite filter_cons_False; [exact IH | discriminate].
Qed.

(** ** The properties of the specification *)

Section Claims.
Variable W : world.
Implicit Types ir_mod target repr libmod libmod_name params : value.
Implicit Types (o : instance) (tr : list event).

(** C1.  For either variant, [get_params()] on a factory constructed with
    the parameter mapping [params] returns exactly [params]: the same keys
    and the same values. *)
Theorem get_params_returns_supplied c ir_mod target repr libmod libmod_name
    params o tr :
  construct W c ir_mod target repr libmod libmod_name params = (Ok o, tr) ->
  get_params o = Ok params.
Proof.
  destruct c; intros Hrun.
  - discriminate.
  - apply AOT_construct_inv in Hrun as (_ & kvs & kas & _ & _ & _ & ->).
    apply AOT_getattr_params.
  - apply Graph_construct_inv in Hrun
      as (_ & f & kvs & kas & m & _ & _ & _ & _ & _ & ->).
    apply Graph_getattr_params.
Qed.

(** C2.  For a graph factory constructed with the graph description
    [graph_str], [get_internal_repr()] and [save_executor_config()] both
    return [graph_str] unchanged. *)
Theorem graph_description_round_trip ir_mod target graph_str libmod
    libmod_name params o tr :
  construct W GraphExecutorFactoryModule
    ir_mod target graph_str libmod libmod_name params = (Ok o, tr) ->
  get_internal_repr o = Ok graph_str /\
  save_executor_config o = Ok graph_str.
Proof.
  intros Hrun. apply Graph_construct_inv in Hrun
    as (_ & f & kvs & kas & m & _ & _ & _ & _ & _ & ->).
  split; apply Graph_getattr_graph.
Qed.

(** On every constructed graph factory [get_graph_json()] raises
    [AttributeError]: it reads [self.internal_repr], which nothing sets. *)
Lemma get_graph_json_raises ir_mod target graph_str libmod libmod_name
    params o tr :
  construct W GraphExecutorFactoryModule
    ir_mod target graph_str libmod libmod_name params = (Ok o, tr) ->
  get_graph_json o = Raise (AttributeError "internal_repr").
Proof.
  intros Hrun. apply Graph_construct_inv in Hrun
    as (_ & f & kvs & kas & m & _ & _ & _ & _ & _ & ->).
  apply Graph_getattr_internal_repr.
Qed.

(** C4.  Whatever the other arguments are, constructing an ahead-of-time
    factory with a runner that is not a [tir.PrimFunc] fails with an
    [AssertionError]; no instance is returned, and nothing was asked of the
    runtime. *)
Theorem AOT_rejects_non_PrimFunc ir_mod target runner libmod libmod_name
    params :
  isinstance runner [PrimFunc] = false ->
  construct W AOTExecutorFactoryModule
    ir_mod target runner libmod libmod_name params
  = (Raise AssertionError, []).
Proof.
  intros Hty. unfold construct, new_instance, AOT_init.
  rewrite bind_run, Hty. reflexivity.
Qed.

(** C5.  Whatever the other arguments are, constructing a graph factory
    with a graph description that is not a string fails with an
    [AssertionError]; no instance is returned, and nothing was asked of the
    runtime. *)
Theorem Graph_rejects_non_string ir_mod target graph_str libmod libmod_name
    params :
  isinstance graph_str string_types = false ->
  construct W GraphExecutorFactoryModule
    ir_mod target graph_str libmod libmod_name params
  = (Raise AssertionError, []).
Proof.
  intros Hty. unfold construct, new_instance, Graph_init.
  rewrite bind_run, Hty. reflexivity.
Qed.

(** C6.  In a graph construction with the graph description [graph_str], the
    library [libmod], the module name [libmod_name] and the parameter pairs
    [kvs], where [f] is the function registered as
    [tvm.graph_executor_factory.create] and [kas] are the pairs with their
    values converted to arrays, [f] is called exactly once, with
    [graph_str], [libmod], [libmod_name] followed by the alternating
    sequence of the names and converted values; the whole trace is the
    registry lookup, one conversion per value, and that call. *)
Theorem Graph_create_called_once ir_mod target graph_str libmod libmod_name
    (f : list value -> result value) (kvs kas : list (value * value)) :
  isinstance graph_str string_types = true ->
  registry W !! create_name = Some f ->
  Forall2 (converted W) kvs kas ->
  calls_to create_name
    (construct W GraphExecutorFactoryModule
       ir_mod target graph_str libmod libmod_name (VDict kvs)).2
  = [create_arguments graph_str libmod libmod_name kas] /\
  (construct W GraphExecutorFactoryModule
     ir_mod target graph_str libmod libmod_name (VDict kvs)).2
  = EvGetGlobalFunc create_name :: map EvArray kvs.*2
      ++ [EvCall create_name
            (create_arguments graph_str libmod libmod_name kas)].
Proof.
  intros Hstr Hreg Hall.
  rewrite (Graph_construct_run W _ _ _ _ _ f kvs kas Hstr Hreg Hall).
  cbn [snd]. split; [apply calls_to_graph_trace | reflexivity].
Qed.

(** C7, as the code has it.  A successful ahead-of-time construction builds
    the alternating list of names and converted values in a local variable
    and drops it: the attributes of the factory are [ir_mod], [target],
    [runner_func], [lib], [libmod_name], [params] and [iter_cnt] and no
    others.  The trace holds one array conversion per value and nothing
    that goes through the function registry. *)
Theorem AOT_flattens_locally ir_mod target runner libmod libmod_name params
    o tr :
  construct W AOTExecutorFactoryModule
    ir_mod target runner libmod libmod_name params = (Ok o, tr) ->
  exists kvs kas,
    params = VDict kvs /\ Forall2 (converted W) kvs kas /\
    flatten_params W params {| self_dict := ∅; trace := [] |}
      = (Ok (alternating kas),
         {| self_dict := ∅; trace := map EvArray kvs.*2 |}) /\
    dict o = AOT_dict ir_mod target runner libmod libmod_name params /\
    tr = map EvArray kvs.*2 /\
    filter (fun e => uses_registry e = true) tr = [].
Proof.
  intros Hrun.
  apply AOT_construct_inv in Hrun as (_ & kvs & kas & -> & Hall & -> & ->).
  exists kvs, kas. repeat split; try done.
  - unfold flatten_params. rewrite bind_run. cbn [lift items].
    by rewrite (params_loop_ok W kvs kas Hall).
  - apply arrays_use_no_registry.
Qed.

(** C8.  For every class and all arguments, a construction either yields an
    instance on which every attribute of [__init__] is set, or raises; in
    the second case the caller gets the exception and no instance. *)
Theorem construction_all_or_nothing c ir_mod target repr libmod libmod_name
    params :
  (exists o,
     (construct W c ir_mod target repr libmod libmod_name params).1 = Ok o /\
     fully_constructed c o) \/
  (exists e,
     (construct W c ir_mod target repr libmod libmod_name params).1
     = Raise e).
Proof.
  destruct (construct W c ir_mod target repr libmod libmod_name params)
    as [[o | e] tr] eqn:Hrun; cbn [fst]; [left | right; by exists e].
  exists o. split; [reflexivity |]. destruct c.
  - discriminate.
  - apply AOT_construct_inv in Hrun as (_ & kvs & kas & _ & _ & _ & ->).
    split; [reflexivity | apply AOT_dict_dom].
  - apply Graph_construct_inv in Hrun
      as (_ & f & kvs & kas & m & _ & _ & _ & _ & _ & ->).
    split; [reflexivity | apply Graph_dict_dom].
Qed.

(** C9.  On a graph factory, [factory[k]] is the indexed access of the
    module that the create function returned at construction: the same
    value when the module returns one, the same exception when it raises. *)
Theorem getitem_forwards_to_module ir_mod target graph_str libmod libmod_name
    params o tr :
  construct W GraphExecutorFactoryModule
    ir_mod target graph_str libmod libmod_name params = (Ok o, tr) ->
  exists f args m,
    registry W !! create_name = Some f /\
    calls_to create_name tr = [args] /\ f args = Ok m /\
    dict o !! "module" = Some m /\
    forall k : value, getitem W o k = module_getitem W m k.
Proof.
  intros Hrun. apply Graph_construct_inv in Hrun
    as (_ & f & kvs & kas & m & Hreg & _ & _ & Hf & -> & ->).
  exists f, ([graph_str; libmod; libmod_name] ++ alternating kas), m.
  split; [exact Hreg |]. split; [apply calls_to_graph_trace |].
  split; [exact Hf |]. split.
  - unfold Graph_dict. cbn [dict]. by simplify_map_eq.
  - intros k. unfold getitem. cbn [cls].
    by rewrite Graph_getattr_module.
Qed.

(** C10.  For either variant, the conversion of the parameter values to
    arrays leaves [get_params()] alone: every value was converted (the
    trace shows it), yet [get_params()] returns the mapping with the values
    that were supplied, not the mapping of the converted values. *)
Theorem get_params_keeps_supplied_values c ir_mod target repr libmod
    libmod_name params o tr :
  construct W c ir_mod target repr libmod libmod_name params = (Ok o, tr) ->
  exists kvs kas,
    params = VDict kvs /\ Forall2 (converted W) kvs kas /\
    (forall v, v ∈ kvs.*2 -> EvArray v ∈ tr) /\
    get_params o = Ok (VDict kvs) /\
    (kas <> kvs -> get_params o <> Ok (VDict kas)).
Proof.
  intros Hrun.
  assert (exists kvs kas, params = VDict kvs /\ Forall2 (converted W) kvs kas
                          /\ forall v, v ∈ kvs.*2 -> EvArray v ∈ tr)
    as (kvs & kas & -> & Hall & Htr).
  { destruct c; [discriminate | |].
    - apply AOT_construct_inv in Hrun as (_ & kvs & kas & -> & Hall & -> & _).
      exists kvs, kas. repeat split; try done.
      intros v Hv. by apply list_elem_of_fmap_2.
    - apply Graph_construct_inv in Hrun
        as (_ & f & kvs & kas & m & _ & -> & Hall & _ & -> & _).
      exists kvs, kas. repeat split; try done.
      intros v Hv. apply list_elem_of_further, elem_of_app. left.
      by apply list_elem_of_fmap_2. }
  assert (get_params o = Ok (VDict kvs)) as Hget.
  { destruct c; [discriminate | |].
    - apply AOT_construct_inv in Hrun as (_ & ? & ? & _ & _ & _ & ->).
      apply AOT_getattr_params.
    - apply Graph_construct_inv in Hrun
        as (_ & ? & ? & ? & ? & _ & _ & _ & _ & _ & ->).
      apply Graph_getattr_params. }
  exists kvs, kas. repeat split; try done.
  intros Hne. rewrite Hget. intros [= Heq]. by apply Hne.
Qed.

End Claims.

(** ** The scenario, property by property *)

Import Scenario.

Lemma get_params_returns_supplied_witness :
  construct runtime AOTExecutorFactoryModule
    ir_mod target runner lib lib_name params
  = (Ok aot_factory, [EvArray weights]) /\
  get_params aot_factory = Ok params.
Proof.
  split; [reflexivity |].
  apply (get_params_returns_supplied runtime AOTExecutorFactoryModule
           ir_mod target runner lib lib_name params aot_factory
           [EvArray weights]).
  reflexivity.
Defined.

Lemma graph_description_round_trip_witness :
  construct runtime GraphExecutorFactoryModule
    ir_mod target graph_str lib lib_name params
  = (Ok graph_factory,
     [EvGetGlobalFunc create_name; EvArray weights;
      EvCall create_name create_args]) /\
  get_internal_repr graph_factory = Ok graph_str /\
  save_executor_config graph_factory = Ok graph_str.
Proof.
  split; [reflexivity |].
  apply (graph_description_round_trip runtime
           ir_mod target graph_str lib lib_name params graph_factory
           [EvGetGlobalFunc create_name; EvArray weights;
            EvCall create_name create_args]).
  reflexivity.
Defined.

(** C3.  The graph factory of the scenario is constructed from the graph
    description [graph_str]; [get_internal_repr()] returns [graph_str], but
    [get_graph_json()] raises [AttributeError] for [internal_repr]
    instead of returning it. *)
Theorem get_graph_json_raises_on_scenario :
  construct runtime GraphExecutorFactoryModule
    ir_mod target graph_str lib lib_name params
  = (Ok graph_factory,
     [EvGetGlobalFunc create_name; EvArray weights;
      EvCall create_name create_args]) /\
  get_internal_repr graph_factory = Ok graph_str /\
  get_graph_json graph_factory = Raise (AttributeError "internal_repr").
Proof. repeat split. Qed.

Lemma AOT_rejects_non_PrimFunc_witness :
  isinstance graph_str [PrimFunc] = false /\
  construct runtime AOTExecutorFactoryModule
    ir_mod target graph_str lib lib_name params
  = (Raise AssertionError, []).
Proof.
  split; [reflexivity |].
  apply (AOT_rejects_non_PrimFunc runtime
           ir_mod target graph_str lib lib_name params).
  reflexivity.
Defined.

Lemma Graph_rejects_non_string_witness :
  isinstance runner string_types = false /\
  construct runtime GraphExecutorFactoryModule
    ir_mod target runner lib lib_name params
  = (Raise AssertionError, []).
Proof.
  split; [reflexivity |].
  apply (Graph_rejects_non_string runtime
           ir_mod target runner lib lib_name params).
  reflexivity.
Defined.

Lemma Graph_create_called_once_witness :
  calls_to create_name
    (construct runtime GraphExecutorFactoryModule
       ir_mod target graph_str lib lib_name params).2
  = [[graph_str; lib; lib_name; VStr "w"; array_of weights]].
Proof.
  apply (Graph_create_called_once runtime
           ir_mod target graph_str lib lib_name
           (fun args => Ok (module_of args))
           [(VStr "w", weights)] [(VStr "w", array_of weights)]).
  - reflexivity.
  - reflexivity.
  - repeat constructor.
Defined.

(** The flattened list of the scenario occurs in none of the values that the
    ahead-of-time factory holds. *)
Ltac refute_occurs :=
  repeat match goal with
         | H : (_, _) = (_, _) |- _ => injection H as -> ->
         | H : ?x = _ |- _ => is_var x; subst x
         | H : @eq value _ _ |- _ => discriminate H
         | H : _ ∈ [] |- _ => by apply not_elem_of_nil in H
         | H : _ ∈ _ :: _ |- _ => apply elem_of_cons in H as [H | H]
         | H : occurs _ ?x |- _ =>
             assert_fails (is_var x); inversion H; clear H; subst
         end.

(** C7, as stated, fails: the ahead-of-time factory of the scenario is
    constructed, the flattened list [w, array] was built on the way, and
    the factory does not retain it. *)
Lemma AOT_flattened_list_not_retained :
  construct runtime AOTExecutorFactoryModule
    ir_mod target runner lib lib_name params
  = (Ok aot_factory, [EvArray weights]) /\
  (flatten_params runtime params {| self_dict := ∅; trace := [] |}).1
  = Ok [VStr "w"; array_of weights] /\
  ~ retains aot_factory (VList [VStr "w"; array_of weights]).
Proof.
  split; [reflexivity |]. split; [reflexivity |].
  intros (a & x & Ha & Hocc). unfold aot_factory in Ha. cbn [dict] in Ha.
  repeat (apply lookup_insert_Some in Ha as [[_ <-] | [_ Ha]];
          [by refute_occurs |]).
  by rewrite lookup_empty in Ha.
Qed.

Lemma AOT_flattens_locally_witness :
  exists kvs kas,
    params = VDict kvs /\ Forall2 (converted runtime) kvs kas /\
    flatten_params runtime params {| self_dict := ∅; trace := [] |}
      = (Ok (alternating kas),
         {| self_dict := ∅; trace := map EvArray kvs.*2 |}) /\
    dict aot_factory = AOT_dict ir_mod target runner lib lib_name params /\
    [EvArray weights] = map EvArray kvs.*2 /\
    filter (fun e => uses_registry e = true) [EvArray weights] = [].
Proof.
  apply (AOT_flattens_locally runtime
           ir_mod target runner lib lib_name params aot_factory
           [EvArray weights]).
  reflexivity.
Defined.

(** While [__init__] runs, the instance may be half set: when the create
    function raises, [ir_mod] and [target] are assigned and nothing else
    is.  The caller never sees that instance. *)
Example Graph_init_interrupted :
  Graph_init rejecting_runtime ir_mod target graph_str lib lib_name params
    {| self_dict := ∅; trace := [] |}
  = (Raise (RuntimeFailure "TVMError" VNone),
     {| self_dict := <["target" := target]> (<["ir_mod" := ir_mod]> ∅);
        trace := [EvGetGlobalFunc create_name; EvArray weights;
                  EvCall create_name create_args] |}) /\
  construct rejecting_runtime GraphExecutorFactoryModule
    ir_mod target graph_str lib lib_name params
  = (Raise (RuntimeFailure "TVMError" VNone),
     [EvGetGlobalFunc create_name; EvArray weights;
      EvCall create_name create_args]).
Proof. split; reflexivity. Qed.

(** Without a registered create function the construction stops at the
    registry lookup. *)
Example Graph_unregistered :
  construct bare_runtime GraphExecutorFactoryModule
    ir_mod target graph_str lib lib_name params
  = (Raise (ValueError
              "Cannot find global function tvm.graph_executor_factory.create"),
     [EvGetGlobalFunc create_name]).
Proof. reflexivity. Qed.

Lemma getitem_forwards_to_module_witness :
  exists f args m,
    registry runtime !! create_name = Some f /\
    calls_to create_name
      [EvGetGlobalFunc create_name; EvArray weights;
       EvCall create_name create_args] = [args] /\
    f args = Ok m /\
    dict graph_factory !! "module" = Some m /\
    forall k : value,
      getitem runtime graph_factory k = module_getitem runtime m k.
Proof.
  apply (getitem_forwards_to_module runtime
           ir_mod target graph_str lib lib_name params graph_factory
           [EvGetGlobalFunc create_name; EvArray weights;
            EvCall create_name create_args]).
  reflexivity.
Defined.

(** The entry point that the module knows, and one that it does not. *)
Example scenario_getitem :
  getitem runtime graph_factory (VStr "default")
  = Ok (entry_point (module_of create_args)) /\
  getitem runtime graph_factory (VStr "op_name")
  = Raise (AttributeError "op_name").
Proof. split; reflexivity. Qed.

Lemma get_params_keeps_supplied_values_witness :
  exists kvs kas,
    params = VDict kvs /\ Forall2 (converted runtime) kvs kas /\
    (forall v, v ∈ kvs.*2 ->
               EvArray v ∈ [EvGetGlobalFunc create_name; EvArray weights;
                            EvCall create_name create_args]) /\
    get_params graph_factory = Ok (VDict kvs) /\
    (kas <> kvs -> get_params graph_factory <> Ok (VDict kas)).
Proof.
  apply (get_params_keeps_supplied_values runtime GraphExecutorFactoryModule
           ir_mod target graph_str lib lib_name params graph_factory
           [EvGetGlobalFunc create_name; EvArray weights;
            EvCall create_name create_args]).
  reflexivity.
Defined.

(** In the scenario the converted value is not the supplied one, and
    [get_params()] hands back the supplied one. *)
Example scenario_params_not_converted :
  nd_array runtime weights = Ok (array_of weights) /\
  array_of weights <> weights /\
  get_params graph_factory = Ok (VDict [(VStr "w", weights)]) /\
  get_params aot_factory = Ok (VDict [(VStr "w", weights)]).
Proof. repeat split. discriminate. Qed.

(** ** More on the constructors: when they succeed and how they fail *)

Section Outcomes.
Variable W : world.
Implicit Types ir_mod target repr libmod libmod_name params : value.
Implicit Types (o : instance) (tr : list event).

(** The loop stops at the first value that does not convert: the values
    before it were converted, the ones after it are not looked at. *)
Lemma params_loop_fail (pre kas post : list (value * value)) (k v : value)
    (e : exn) :
  Forall2 (converted W) pre kas ->
  nd_array W v = Raise e ->
  forall (args : list value) (st : state),
    params_loop W (pre ++ (k, v) :: post) args st =
    (Raise e,
     State (self_dict st) (trace st ++ map EvArray (pre.*2 ++ [v]))).
Proof.
  intros Hall Hv.
  induction Hall as [| [k0 v0] [k0' a0] pre kas [Hk Ha] _ IH]; intros args st.
  - cbn [app params_loop]. rewrite bind_run, ndarray_array_run, Hv.
    reflexivity.
  - simpl in Hk, Ha. cbn [app params_loop].
    rewrite bind_run, ndarray_array_run, Ha, IH.
    cbn [self_dict trace fmap list_fmap map snd app].
    by rewrite <- app_assoc.
Qed.



(** The trace of an ahead-of-time construction holds array conversions
    only, whatever the arguments and the outcome. *)
Lemma AOT_trace_arrays ir_mod target runner libmod libmod_name params :
  exists vs : list value,
    (construct W AOTExecutorFactoryModule
       ir_mod target runner libmod libmod_name params).2 = map EvArray vs.
Proof.
  unfold construct, new_instance, AOT_init. rewrite bind_run.
  destruct (isinstance runner [PrimFunc]); cbn [assert_ ret lift];
    [| by exists []].
  rewrite bind_run.
  destruct (flatten_params W params _) as [[flat | e] st'] eqn:Hflat;
    apply flatten_params_inv in Hflat as (_ & vs & Htr & _);
    exists vs; cbn in *; by rewrite Htr.
Qed.

End Outcomes.

Section Extras.
Variable W : world.
Implicit Types ir_mod target repr libmod libmod_name params : value.
Implicit Types (o : instance) (tr : list event).

Ltac read_dict :=
  unfold getattr, AOT_dict, Graph_dict; cbn [dict cls]; by simplify_map_eq.

Lemma AOT_construct_flatten_raise ir_mod target runner libmod libmod_name
    params (e : exn) (st' : state) :
  isinstance runner [PrimFunc] = true ->
  flatten_params W params {| self_dict := ∅; trace := [] |}
    = (Raise e, st') ->
  construct W AOTExecutorFactoryModule
    ir_mod target runner libmod libmod_name params = (Raise e, trace st').
Proof.
  intros Hty Hflat. unfold construct, new_instance, AOT_init.
  rewrite bind_run, Hty. cbn [assert_ ret]. rewrite bind_run.
  by rewrite Hflat.
Qed.

Lemma Graph_construct_flatten_raise ir_mod target graph_str libmod
    libmod_name params (f : list value -> result value) (e : exn)
    (st' : state) :
  isinstance graph_str string_types = true ->
  registry W !! create_name = Some f ->
  flatten_params W params
    {| self_dict := ∅; trace := [EvGetGlobalFunc create_name] |}
    = (Raise e, st') ->
  construct W GraphExecutorFactoryModule
    ir_mod target graph_str libmod libmod_name params = (Raise e, trace st').
Proof.
  intros Hstr Hreg Hflat. unfold construct, new_instance, Graph_init.
  rewrite bind_run, Hstr. cbn [assert_ ret]. rewrite bind_run.
  unfold get_global_func at 1. rewrite bind_run. cbn [emit].
  rewrite Hreg. cbn [ret self_dict trace app]. rewrite bind_run.
  by rewrite Hflat.
Qed.

(** The ahead-of-time factory hands back its runner function, and that
    runner is a [tir.PrimFunc]. *)
Theorem AOT_get_internal_repr_runner ir_mod target runner libmod libmod_name
    params o tr :
  construct W AOTExecutorFactoryModule
    ir_mod target runner libmod libmod_name params = (Ok o, tr) ->
  get_internal_repr o = Ok runner /\ isinstance runner [PrimFunc] = true.
Proof.
  intros Hrun.
  apply AOT_construct_inv in Hrun as (Hty & kvs & kas & _ & _ & _ & ->).
  split; [| exact Hty]. unfold get_internal_repr. cbn [cls]. read_dict.
Qed.

(** For either variant, [get_lib()] returns the library given at
    construction. *)
Theorem get_lib_returns_library c ir_mod target repr libmod libmod_name
    params o tr :
  construct W c ir_mod target repr libmod libmod_name params = (Ok o, tr) ->
  get_lib o = Ok libmod.
Proof.
  destruct c; intros Hrun.
  - discriminate.
  - apply AOT_construct_inv in Hrun as (_ & kvs & kas & _ & _ & _ & ->).
    unfold get_lib. cbn [cls]. read_dict.
  - apply Graph_construct_inv in Hrun
      as (_ & f & kvs & kas & m & _ & _ & _ & _ & _ & ->).
    unfold get_lib. cbn [cls]. read_dict.
Qed.

(** [export_library] of a graph factory is the [export_library] of the
    module that the create function returned, on the same file name,
    compiler, addons and keyword arguments: the same value or the same
    exception. *)
Theorem export_library_forwards_to_module ir_mod target graph_str libmod
    libmod_name params o tr :
  construct W GraphExecutorFactoryModule
    ir_mod target graph_str libmod libmod_name params = (Ok o, tr) ->
  exists f args m,
    registry W !! create_name = Some f /\
    calls_to create_name tr = [args] /\ f args = Ok m /\
    forall (file_name fcompile addons : value)
           (kwargs : list (string * value)),
      export_library W o file_name fcompile addons kwargs
      = module_export_library W m [file_name; fcompile; addons] kwargs.
Proof.
  intros Hrun. apply Graph_construct_inv in Hrun
    as (_ & f & kvs & kas & m & Hreg & _ & _ & Hf & -> & ->).
  exists f, ([graph_str; libmod; libmod_name] ++ alternating kas), m.
  split; [exact Hreg |]. split; [apply calls_to_graph_trace |].
  split; [exact Hf |]. intros file_name fcompile addons kwargs.
  unfold export_library. cbn [cls]. by rewrite Graph_getattr_module.
Qed.

(** For either variant, a constructed factory carries the module, the
    target and the module name it was given, and its [iter_cnt] is 0. *)
Theorem constructed_attributes c ir_mod target repr libmod libmod_name
    params o tr :
  construct W c ir_mod target repr libmod libmod_name params = (Ok o, tr) ->
  getattr o "ir_mod" = Ok ir_mod /\
  getattr o "target" = Ok target /\
  getattr o "libmod_name" = Ok libmod_name /\
  getattr o "iter_cnt" = Ok (VInt 0).
Proof.
  destruct c; intros Hrun.
  - discriminate.
  - apply AOT_construct_inv in Hrun as (_ & kvs & kas & _ & _ & _ & ->).
    repeat split; read_dict.
  - apply Graph_construct_inv in Hrun
      as (_ & f & kvs & kas & m & _ & _ & _ & _ & _ & ->).
    repeat split; read_dict.
Qed.



Lemma Graph_construct_unregistered ir_mod target graph_str libmod libmod_name
    params :
  isinstance graph_str string_types = true ->
  registry W !! create_name = None ->
  (construct W GraphExecutorFactoryModule
     ir_mod target graph_str libmod libmod_name params).2
  = [EvGetGlobalFunc create_name] /\
  exists e,
    (construct W GraphExecutorFactoryModule
       ir_mod target graph_str libmod libmod_name params).1 = Raise e.
Proof.
  intros Hstr Hreg.
  assert (construct W GraphExecutorFactoryModule
            ir_mod target graph_str libmod libmod_name params
          = (Raise (ValueError ("Cannot find global function " ++ create_name)),
             [EvGetGlobalFunc create_name])) as ->.
  { unfold construct, new_instance, Graph_init.
    rewrite bind_run, Hstr. cbn [assert_ ret]. rewrite bind_run.
    unfold get_global_func at 1. rewrite bind_run. cbn [emit].
    by rewrite Hreg. }
  split; [reflexivity | by eexists].
Qed.

(** When the create function is not registered, a graph construction fails
    at the registry lookup: nothing is converted, nothing is called, no
    instance is returned. *)
Theorem Graph_unregistered_fails_at_lookup ir_mod target graph_str libmod
    libmod_name params :
  isinstance graph_str string_types = true ->
  registry W !! create_name = None ->
  exists e,
    construct W GraphExecutorFactoryModule
      ir_mod target graph_str libmod libmod_name params
    = (Raise e, [EvGetGlobalFunc create_name]).
Proof.
  intros Hstr Hreg.
  destruct (Graph_construct_unregistered
              ir_mod target graph_str libmod libmod_name params Hstr Hreg)
    as [Htr [e He]].
  exists e. destruct (construct _ _ _ _ _ _ _ _) as [r tr].
  cbn [fst snd] in *. by subst.
Qed.

(** An ahead-of-time construction stops at the first parameter value that
    does not convert: it raises the exception of the conversion, the values
    before it were converted and the ones after it are never looked at. *)
Theorem AOT_conversion_failure ir_mod target runner libmod libmod_name
    (pre kas post : list (value * value)) (k v : value) (e : exn) :
  isinstance runner [PrimFunc] = true ->
  Forall2 (converted W) pre kas ->
  nd_array W v = Raise e ->
  construct W AOTExecutorFactoryModule
    ir_mod target runner libmod libmod_name (VDict (pre ++ (k, v) :: post))
  = (Raise e, map EvArray (pre.*2 ++ [v])).
Proof.
  intros Hty Hall Hv.
  apply (AOT_construct_flatten_raise _ _ _ _ _ _ e
           {| self_dict := ∅; trace := map EvArray (pre.*2 ++ [v]) |} Hty).
  unfold flatten_params. rewrite bind_run. cbn [lift items].
  by rewrite (params_loop_fail W pre kas post k v e Hall Hv).
Qed.

(** A graph construction stops at the first parameter value that does not
    convert: it raises the exception of the conversion, and the create
    function, though looked up, is never called. *)
Theorem Graph_conversion_failure ir_mod target graph_str libmod libmod_name
    (f : list value -> result value)
    (pre kas post : list (value * value)) (k v : value) (e : exn) :
  isinstance graph_str string_types = true ->
  registry W !! create_name = Some f ->
  Forall2 (converted W) pre kas ->
  nd_array W v = Raise e ->
  construct W GraphExecutorFactoryModule
    ir_mod target graph_str libmod libmod_name
    (VDict (pre ++ (k, v) :: post))
  = (Raise e, EvGetGlobalFunc create_name :: map EvArray (pre.*2 ++ [v])) /\
  calls_to create_name
    (construct W GraphExecutorFactoryModule
       ir_mod target graph_str libmod libmod_name
       (VDict (pre ++ (k, v) :: post))).2 = [].
Proof.
  intros Hstr Hreg Hall Hv.
  assert (construct W GraphExecutorFactoryModule
            ir_mod target graph_str libmod libmod_name
            (VDict (pre ++ (k, v) :: post))
          = (Raise e,
             EvGetGlobalFunc create_name :: map EvArray (pre.*2 ++ [v])))
    as Hrun.
  { apply (Graph_construct_flatten_raise _ _ _ _ _ _ f e
             {| self_dict := ∅;
                trace := EvGetGlobalFunc create_name
                           :: map EvArray (pre.*2 ++ [v]) |} Hstr Hreg).
    unfold flatten_params. rewrite bind_run. cbn [lift items].
    by rewrite (params_loop_fail W pre kas post k v e Hall Hv). }
  split; [exact Hrun |]. rewrite Hrun. cbn [snd].
  unfold calls_to. cbn [omap list_omap]. apply calls_to_arrays.
Qed.

(** When the parameters have no [items] method, an ahead-of-time
    construction raises what the attribute access raises, before anything is
    asked of the runtime. *)
Theorem AOT_params_without_items ir_mod target runner libmod libmod_name
    params (e : exn) :
  isinstance runner [PrimFunc] = true ->
  items params = Raise e ->
  construct W AOTExecutorFactoryModule
    ir_mod target runner libmod libmod_name params = (Raise e, []).
Proof.
  intros Hty Hitems.
  apply (AOT_construct_flatten_raise _ _ _ _ _ _ e
           {| self_dict := ∅; trace := [] |} Hty).
  unfold flatten_params. rewrite bind_run. cbn [lift]. by rewrite Hitems.
Qed.

(** When the parameters have no [items] method, a graph construction raises
    what the attribute access raises; by then the create function was looked
    up, and it is never called. *)
Theorem Graph_params_without_items ir_mod target graph_str libmod libmod_name
    params (f : list value -> result value) (e : exn) :
  isinstance graph_str string_types = true ->
  registry W !! create_name = Some f ->
  items params = Raise e ->
  construct W GraphExecutorFactoryModule
    ir_mod target graph_str libmod libmod_name params
  = (Raise e, [EvGetGlobalFunc create_name]).
Proof.
  intros Hstr Hreg Hitems.
  apply (Graph_construct_flatten_raise _ _ _ _ _ _ f e
           {| self_dict := ∅; trace := [EvGetGlobalFunc create_name] |}
           Hstr Hreg).
  unfold flatten_params. rewrite bind_run. cbn [lift]. by rewrite Hitems.
Qed.

(** When the create function raises, the graph construction raises the same
    exception, after the one call, and returns no instance. *)
Theorem Graph_create_failure ir_mod target graph_str libmod libmod_name
    (f : list value -> result value) (kvs kas : list (value * value))
    (e : exn) :
  isinstance graph_str string_types = true ->
  registry W !! create_name = Some f ->
  Forall2 (converted W) kvs kas ->
  f (create_arguments graph_str libmod libmod_name kas) = Raise e ->
  construct W GraphExecutorFactoryModule
    ir_mod target graph_str libmod libmod_name (VDict kvs)
  = (Raise e,
     EvGetGlobalFunc create_name :: map EvArray kvs.*2
       ++ [EvCall create_name
             (create_arguments graph_str libmod libmod_name kas)]).
Proof.
  intros Hstr Hreg Hall Hf.
  rewrite (Graph_construct_run W _ _ _ _ _ f kvs kas Hstr Hreg Hall).
  unfold create_arguments in Hf. by rewrite Hf.
Qed.

Lemma alternating_length (kas : list (value * value)) :
  length (alternating kas) = 2 * length kas.
Proof.
  induction kas as [| [k a] kas IH]; [reflexivity |].
  cbn [alternating length]. rewrite IH. lia.
Qed.

Lemma alternating_lookup (kvs kas : list (value * value)) :
  Forall2 (converted W) kvs kas ->
  forall (i : nat) (k v : value),
    kvs !! i = Some (k, v) ->
    exists a, nd_array W v = Ok a /\
              alternating kas !! (2 * i) = Some k /\
              alternating kas !! (2 * i + 1) = Some a.
Proof.
  induction 1 as [| [k0 v0] [k0' a0] kvs kas [Hk Ha] _ IH]; intros i k v Hi.
  - by rewrite lookup_nil in Hi.
  - simpl in Hk, Ha. subst k0'. destruct i as [| i].
    + injection Hi as -> ->. by exists a0.
    + cbn [lookup list_lookup] in Hi. destruct (IH i k v Hi) as (a & Hv & H1 & H2).
      exists a. split; [exact Hv |].
      replace (2 * S i) with (S (S (2 * i))) by lia.
      cbn [alternating]. by split.
Qed.

(** Where each argument of the create call sits: the graph description, the
    library and the module name come first; the name of the [i]-th parameter
    is at position [3 + 2 i] and its converted value right after it; there
    are [3 + 2 n] arguments for [n] parameters. *)
Theorem Graph_create_argument_positions ir_mod target graph_str libmod
    libmod_name (f : list value -> result value)
    (kvs kas : list (value * value)) :
  isinstance graph_str string_types = true ->
  registry W !! create_name = Some f ->
  Forall2 (converted W) kvs kas ->
  exists args,
    calls_to create_name
      (construct W GraphExecutorFactoryModule
         ir_mod target graph_str libmod libmod_name (VDict kvs)).2 = [args] /\
    length args = 3 + 2 * length kvs /\
    take 3 args = [graph_str; libmod; libmod_name] /\
    forall (i : nat) (k v : value),
      kvs !! i = Some (k, v) ->
      args !! (3 + 2 * i) = Some k /\
      exists a, nd_array W v = Ok a /\ args !! (3 + 2 * i + 1) = Some a.
Proof.
  intros Hstr Hreg Hall.
  exists ([graph_str; libmod; libmod_name] ++ alternating kas).
  rewrite (Graph_construct_run W _ _ _ _ _ f kvs kas Hstr Hreg Hall).
  cbn [snd]. split; [apply calls_to_graph_trace |]. split.
  { rewrite length_app, alternating_length.
    by rewrite <- (Forall2_length _ _ _ Hall). }
  split; [reflexivity |]. intros i k v Hi.
  destruct (alternating_lookup kvs kas Hall i k v Hi) as (a & Hv & H1 & H2).
  split; [exact H1 |]. by exists a.
Qed.

(** Whatever its arguments and its outcome, an ahead-of-time construction
    never looks up the function registry and never calls a packed
    function. *)
Theorem AOT_never_uses_registry ir_mod target runner libmod libmod_name
    params :
  filter (fun e => uses_registry e = true)
    (construct W AOTExecutorFactoryModule
       ir_mod target runner libmod libmod_name params).2 = [].
Proof.
  destruct (AOT_trace_arrays W ir_mod target runner libmod libmod_name params)
    as [vs ->].
  apply arrays_use_no_registry.
Qed.

(** Whatever its arguments and its outcome, what a graph construction asks
    of the runtime has one of three shapes: nothing; the registry lookup
    followed by array conversions; or the lookup, the conversions and, last,
    one call of the create function.  So the create function is called at
    most once. *)
Theorem Graph_trace_shape ir_mod target graph_str libmod libmod_name params :
  ((construct W GraphExecutorFactoryModule
      ir_mod target graph_str libmod libmod_name params).2 = [] \/
   (exists vs,
      (construct W GraphExecutorFactoryModule
         ir_mod target graph_str libmod libmod_name params).2
      = EvGetGlobalFunc create_name :: map EvArray vs) \/
   (exists vs args,
      (construct W GraphExecutorFactoryModule
         ir_mod target graph_str libmod libmod_name params).2
      = EvGetGlobalFunc create_name :: map EvArray vs
          ++ [EvCall create_name args])) /\
  length (calls_to create_name
            (construct W GraphExecutorFactoryModule
               ir_mod target graph_str libmod libmod_name params).2) <= 1.
Proof.
  destruct (isinstance graph_str string_types) eqn:Hstr.
  2: { unfold construct, new_instance, Graph_init.
       rewrite bind_run, Hstr. cbn. split; [by left | lia]. }
  destruct (registry W !! create_name) as [f |] eqn:Hreg.
  2: { destruct (Graph_construct_unregistered
                   ir_mod target graph_str libmod libmod_name params
                   Hstr Hreg) as [-> _].
       cbn. split; [right; left; by exists [] | lia]. }
  destruct (flatten_params W params
              {| self_dict := ∅; trace := [EvGetGlobalFunc create_name] |})
    as [[flat | e] st'] eqn:Hflat.
  - apply flatten_params_inv in Hflat as (_ & vs & _ & Hok).
    destruct (Hok flat eq_refl) as (kvs & kas & -> & -> & Hall & _).
    rewrite (Graph_construct_run W _ _ _ _ _ f kvs kas Hstr Hreg Hall).
    cbn [snd]. split; [right; right; by eexists _, _ |].
    by rewrite calls_to_graph_trace.
  - rewrite (Graph_construct_flatten_raise _ _ _ _ _ _ f e st' Hstr Hreg Hflat).
    apply flatten_params_inv in Hflat as (_ & vs & Htr & _).
    cbn [snd trace app] in *. rewrite Htr. split.
    + right; left. by exists vs.
    + unfold calls_to. cbn [omap list_omap].
      fold (calls_to create_name (map EvArray vs)).
      rewrite calls_to_arrays. cbn. lia.
Qed.



End Extras.

Lemma params_loop_ext (W W' : world) :
  (forall v, nd_array W v = nd_array W' v) ->
  forall (kvs : list (value * value)) (args : list value) (st : state),
    params_loop W kvs args st = params_loop W' kvs args st.
Proof.
  intros Hnd. induction kvs as [| [k v] kvs IH]; intros args st;
    [reflexivity |].
  cbn [params_loop]. rewrite !bind_run, !ndarray_array_run, <- Hnd.
  destruct (nd_array W v); [apply IH | reflexivity].
Qed.

(** An ahead-of-time construction depends on the runtime through the array
    conversion only: two runtimes that convert alike give the same outcome
    and the same trace, whatever they register. *)
Theorem AOT_construct_ignores_registry (W W' : world)
    (ir_mod target runner libmod libmod_name params : value) :
  (forall v, nd_array W v = nd_array W' v) ->
  construct W AOTExecutorFactoryModule
    ir_mod target runner libmod libmod_name params
  = construct W' AOTExecutorFactoryModule
      ir_mod target runner libmod libmod_name params.
Proof.
  intros Hnd. unfold construct, new_instance, AOT_init.
  rewrite !bind_run. destruct (isinstance runner [PrimFunc]); [| reflexivity].
  cbn [assert_ ret]. rewrite !bind_run. unfold flatten_params.
  rewrite !bind_run. cbn [lift]. destruct (items params); [| reflexivity].
  by rewrite (params_loop_ext W W' Hnd).
Qed.

(** ** The further properties on concrete runs *)

Import Cases.

Lemma AOT_get_internal_repr_runner_witness :
  get_internal_repr aot_factory = Ok runner /\
  isinstance runner [PrimFunc] = true.
Proof.
  apply (AOT_get_internal_repr_runner runtime
           ir_mod target runner lib lib_name params aot_factory
           [EvArray weights]).
  reflexivity.
Defined.

Lemma get_lib_returns_library_witness :
  get_lib graph_factory = Ok lib.
Proof.
  apply (get_lib_returns_library runtime GraphExecutorFactoryModule
           ir_mod target graph_str lib lib_name params graph_factory
           [EvGetGlobalFunc create_name; EvArray weights;
            EvCall create_name create_args]).
  reflexivity.
Defined.

Lemma export_library_forwards_to_module_witness :
  exists f args m,
    registry runtime !! create_name = Some f /\
    calls_to create_name
      [EvGetGlobalFunc create_name; EvArray weights;
       EvCall create_name create_args] = [args] /\
    f args = Ok m /\
    forall (file_name fcompile addons : value)
           (kwargs : list (string * value)),
      export_library runtime graph_factory file_name fcompile addons kwargs
      = module_export_library runtime m [file_name; fcompile; addons] kwargs.
Proof.
  apply (export_library_forwards_to_module runtime
           ir_mod target graph_str lib lib_name params graph_factory
           [EvGetGlobalFunc create_name; EvArray weights;
            EvCall create_name create_args]).
  reflexivity.
Defined.

Lemma constructed_attributes_witness :
  getattr aot_factory "ir_mod" = Ok ir_mod /\
  getattr aot_factory "target" = Ok target /\
  getattr aot_factory "libmod_name" = Ok lib_name /\
  getattr aot_factory "iter_cnt" = Ok (VInt 0).
Proof.
  apply (constructed_attributes runtime AOTExecutorFactoryModule
           ir_mod target runner lib lib_name params aot_factory
           [EvArray weights]).
  reflexivity.
Defined.

Lemma Graph_unregistered_fails_at_lookup_witness :
  exists e,
    construct bare_runtime GraphExecutorFactoryModule
      ir_mod target graph_str lib lib_name params
    = (Raise e, [EvGetGlobalFunc create_name]).
Proof.
  apply (Graph_unregistered_fails_at_lookup bare_runtime
           ir_mod target graph_str lib lib_name params);
    reflexivity.
Defined.

Lemma AOT_conversion_failure_witness :
  construct picky_runtime AOTExecutorFactoryModule
    ir_mod target runner lib lib_name (VDict three_params)
  = (Raise (TypeError "cannot convert to an array"),
     [EvArray weights; EvArray VNone]).
Proof.
  apply (AOT_conversion_failure picky_runtime
           ir_mod target runner lib lib_name
           [(VStr "w", weights)] [(VStr "w", array_of weights)]
           [(VStr "c", bias)] (VStr "b") VNone
           (TypeError "cannot convert to an array")).
  - reflexivity.
  - repeat constructor.
  - reflexivity.
Defined.

Lemma Graph_conversion_failure_witness :
  construct picky_runtime GraphExecutorFactoryModule
    ir_mod target graph_str lib lib_name (VDict three_params)
  = (Raise (TypeError "cannot convert to an array"),
     [EvGetGlobalFunc create_name; EvArray weights; EvArray VNone]) /\
  calls_to create_name
    (construct picky_runtime GraphExecutorFactoryModule
       ir_mod target graph_str lib lib_name (VDict three_params)).2 = [].
Proof.
  apply (Graph_conversion_failure picky_runtime
           ir_mod target graph_str lib lib_name
           (fun args => Ok (module_of args))
           [(VStr "w", weights)] [(VStr "w", array_of weights)]
           [(VStr "c", bias)] (VStr "b") VNone
           (TypeError "cannot convert to an array")).
  - reflexivity.
  - reflexivity.
  - repeat constructor.
  - reflexivity.
Defined.

Lemma AOT_params_without_items_witness :
  construct runtime AOTExecutorFactoryModule
    ir_mod target runner lib lib_name VNone
  = (Raise (AttributeError "items"), []).
Proof.
  apply (AOT_params_without_items runtime
           ir_mod target runner lib lib_name VNone (AttributeError "items"));
    reflexivity.
Defined.

Lemma Graph_params_without_items_witness :
  construct runtime GraphExecutorFactoryModule
    ir_mod target graph_str lib lib_name VNone
  = (Raise (AttributeError "items"), [EvGetGlobalFunc create_name]).
Proof.
  apply (Graph_params_without_items runtime
           ir_mod target graph_str lib lib_name VNone
           (fun args => Ok (module_of args)) (AttributeError "items"));
    reflexivity.
Defined.

Lemma Graph_create_failure_witness :
  construct rejecting_runtime GraphExecutorFactoryModule
    ir_mod target graph_str lib lib_name params
  = (Raise (RuntimeFailure "TVMError" VNone),
     [EvGetGlobalFunc create_name; EvArray weights;
      EvCall create_name create_args]).
Proof.
  apply (Graph_create_failure rejecting_runtime
           ir_mod target graph_str lib lib_name
           (fun _ => Raise (RuntimeFailure "TVMError" VNone))
           [(VStr "w", weights)] [(VStr "w", array_of weights)]
           (RuntimeFailure "TVMError" VNone)).
  - reflexivity.
  - reflexivity.
  - repeat constructor.
  - reflexivity.
Defined.

Lemma Graph_create_argument_positions_witness :
  exists args,
    calls_to create_name
      (construct picky_runtime GraphExecutorFactoryModule
         ir_mod target graph_str lib lib_name (VDict two_params)).2 = [args] /\
    length args = 3 + 2 * length two_params /\
    take 3 args = [graph_str; lib; lib_name] /\
    forall (i : nat) (k v : value),
      two_params !! i = Some (k, v) ->
      args !! (3 + 2 * i) = Some k /\
      exists a, nd_array picky_runtime v = Ok a /\
                args !! (3 + 2 * i + 1) = Some a.
Proof.
  apply (Graph_create_argument_positions picky_runtime
           ir_mod target graph_str lib lib_name
           (fun args => Ok (module_of args)) two_params two_arrays).
  - reflexivity.
  - reflexivity.
  - repeat constructor.
Defined.

(** The arguments of the create call for two parameters, in full. *)
Example two_params_create_call :
  calls_to create_name
    (construct picky_runtime GraphExecutorFactoryModule
       ir_mod target graph_str lib lib_name (VDict two_params)).2
  = [[graph_str; lib; lib_name;
      VStr "w"; array_of weights; VStr "c"; array_of bias]].
Proof. reflexivity. Qed.

Lemma AOT_construct_ignores_registry_witness :
  construct runtime AOTExecutorFactoryModule
    ir_mod target runner lib lib_name params
  = construct bare_runtime AOTExecutorFactoryModule
      ir_mod target runner lib lib_name params.
Proof.
  apply (AOT_construct_ignores_registry runtime bare_runtime
           ir_mod target runner lib lib_name params).
  intros v. reflexivity.
Defined.
